(** * Product catalogue API

    A shallow embedding of the two request handlers of
    [app/routers/products.py] and of the application object of
    [app/main.py], together with the part of FastAPI and SQLAlchemy the
    handlers lean on.  Handlers are written in a state-and-exception monad
    over a [World] that holds the product table, the statements handed to
    the session and the records emitted through [logging]. *)

From Stdlib Require Import ZArith String List Lia.
From stdpp Require Import base list sorting.

Local Open Scope Z_scope.
Local Open Scope string_scope.

(** ** JSON values: Python dict literals and response bodies *)

Module Json.

#[local] Set Warnings "-register-all".

Inductive json : Type :=
| JNull
| JInt (z : Z)
| JStr (s : string)
| JArr (items : list json)
| JObj (fields : list (string * json)).

(** [d[k]] on a dict; [None] when [d] is not a dict or has no such key. *)
Definition get_field (k : string) (j : json) : option json :=
  match j with
  | JObj fields =>
      match List.find (fun kv => String.eqb (fst kv) k) fields with
      | Some kv => Some (snd kv)
      | None => None
      end
  | _ => None
  end.

End Json.
Export Json.

(** ** app/models.py and app/schemas.py *)

Module Models.

(** Modelled from the spec: [app/models.py] is not part of the sources at
    hand.  The data model gives a Product an internal identifier [prd_id],
    the external lookup key [code], a display [name] and further catalogue
    attributes, of which the price is the one it names. *)
Record Product : Type := mkProduct {
  prd_id : Z;
  code : Z;
  name : string;
  price : Z
}.

End Models.
Export Models.

Module Schemas.

(** Modelled from the spec: [app/schemas.py] is not part of the sources at
    hand.  The public representation of a Product carries the same fields
    as the row it is built from. *)
Record ProductSchema : Type := mkProductSchema {
  s_prd_id : Z;
  s_code : Z;
  s_name : string;
  s_price : Z
}.

(** Modelled from the spec: [ProductSchema.from_orm], the response mapper
    that turns a store row into its wire representation field by field. *)
Definition from_orm (p : Product) : ProductSchema :=
  {| s_prd_id := prd_id p; s_code := code p; s_name := name p; s_price := price p |}.

(** What [response_model=ProductSchema] serialises a returned schema to. *)
Definition ProductSchema_json (p : ProductSchema) : json :=
  JObj [("prd_id", JInt (s_prd_id p)); ("code", JInt (s_code p));
        ("name", JStr (s_name p)); ("price", JInt (s_price p))].

(** What [response_model=list[ProductSchema]] serialises to. *)
Definition ProductSchema_list_json (ps : list ProductSchema) : json :=
  JArr (map ProductSchema_json ps).

End Schemas.
Export Schemas.

(** ** Python exceptions, logging and the handler monad *)

Module Py.

(** The exception classes the handlers tell apart.  [HTTPException] is
    FastAPI's, [SQLAlchemyError] stands for that class and its subclasses
    (named by [cls]), and [Exception_] for every other [Exception]. *)
Inductive exn : Type :=
| HTTPException (status_code : Z) (detail : json)
| SQLAlchemyError (cls : string) (text : string)
| Exception_ (cls : string) (text : string).

Inductive Result (A : Type) : Type :=
| Return (a : A)
| Raise (e : exn).
Arguments Return {A} a.
Arguments Raise {A} e.

(** An f-string is a sequence of literal parts and formatted values; a
    formatted exception is [str(e)]. *)
Inductive fragment : Type :=
| Lit (s : string)
| FInt (z : Z)
| FStr (s : string)
| FExc (e : exn).

Inductive level : Type := INFO | WARNING | ERROR.

Record LogRecord : Type := mkLogRecord {
  levelname : level;
  message : list fragment;
  exc_info : bool
}.

End Py.
Export Py.

(** ** The session, the table behind it and the logger *)

Module Db.

(** [select(Product)] with the clauses the handlers attach to it:
    [.where(Product.code == c)], [.limit(n)], [.offset(n)] and
    [.order_by(Product.prd_id)]. *)
Record Select : Type := mkSelect {
  whereclause : option Z;
  limit_clause : option Z;
  offset_clause : option Z;
  order_by_prd_id : bool
}.

Definition select_Product : Select :=
  {| whereclause := None; limit_clause := None; offset_clause := None;
     order_by_prd_id := false |}.

Definition where_code_eq (c : Z) (q : Select) : Select :=
  {| whereclause := Some c; limit_clause := limit_clause q;
     offset_clause := offset_clause q; order_by_prd_id := order_by_prd_id q |}.

Definition limit (n : Z) (q : Select) : Select :=
  {| whereclause := whereclause q; limit_clause := Some n;
     offset_clause := offset_clause q; order_by_prd_id := order_by_prd_id q |}.

Definition offset (n : Z) (q : Select) : Select :=
  {| whereclause := whereclause q; limit_clause := limit_clause q;
     offset_clause := Some n; order_by_prd_id := order_by_prd_id q |}.

Definition order_by_Product_prd_id (q : Select) : Select :=
  {| whereclause := whereclause q; limit_clause := limit_clause q;
     offset_clause := offset_clause q; order_by_prd_id := true |}.

(** [AsyncSession.execute] takes any statement.  The handlers only ever
    build a [select]; [Insert] is the session's writing statement. *)
Inductive Stmt : Type :=
| StmtSelect (q : Select)
| StmtInsert (row : Product).

(** A negative LIMIT or OFFSET is outside SQL; what happens is the
    engine's business.  SQLite reads a negative LIMIT as no limit and a
    negative OFFSET as zero, the strict engines (MySQL, PostgreSQL)
    reject the statement. *)
Inductive Dialect : Type := sqlite | strict.

Record World : Type := mkWorld {
  table : list Product;
  dialect : Dialect;
  fault : option exn;
  statements : list Stmt;
  records : list LogRecord
}.

(** Ascending order on the internal identifier. *)
Definition prd_id_le (a b : Product) : Prop := (prd_id a <= prd_id b)%Z.

#[global] Instance prd_id_le_dec (a b : Product) : Decision (prd_id_le a b) :=
  Z_le_dec (prd_id a) (prd_id b).

Definition apply_where (w : option Z) (rows : list Product) : list Product :=
  match w with
  | Some c => filter (fun p => code p = c) rows
  | None => rows
  end.

Definition apply_order_by (o : bool) (rows : list Product) : list Product :=
  if o then merge_sort prd_id_le rows else rows.

Definition rejected : exn :=
  SQLAlchemyError "ProgrammingError" "negative LIMIT or OFFSET".

Definition apply_offset (d : Dialect) (o : option Z) (rows : list Product)
  : Result (list Product) :=
  match o with
  | None => Return rows
  | Some n =>
      if (0 <=? n)%Z then Return (drop (Z.to_nat n) rows)
      else match d with sqlite => Return rows | strict => Raise rejected end
  end.

Definition apply_limit (d : Dialect) (l : option Z) (rows : list Product)
  : Result (list Product) :=
  match l with
  | None => Return rows
  | Some n =>
      if (0 <=? n)%Z then Return (take (Z.to_nat n) rows)
      else match d with sqlite => Return rows | strict => Raise rejected end
  end.

(** SELECT ... WHERE ... ORDER BY ... LIMIT ... OFFSET ...: filter, sort,
    skip, take. *)
Definition run_select (d : Dialect) (q : Select) (t : list Product)
  : Result (list Product) :=
  let rows := apply_order_by (order_by_prd_id q) (apply_where (whereclause q) t) in
  match apply_offset d (offset_clause q) rows with
  | Return rows' => apply_limit d (limit_clause q) rows'
  | Raise e => Raise e
  end.

End Db.
Export Db.

(** ** Handler computations: state passing with exceptions *)

Module Run.

Definition M (A : Type) : Type := World -> Result A * World.

Definition ret {A} (a : A) : M A := fun w => (Return a, w).

Definition raise {A} (e : exn) : M A := fun w => (Raise e, w).

Definition bind {A B} (m : M A) (k : A -> M B) : M B :=
  fun w =>
    match m w with
    | (Return a, w') => k a w'
    | (Raise e, w') => (Raise e, w')
    end.

(** [try: body  except ...: handler]: the first matching clause is chosen
    inside [handler]. *)
Definition try_except {A} (body : M A) (handler : exn -> M A) : M A :=
  fun w =>
    match body w with
    | (Return a, w') => (Return a, w')
    | (Raise e, w') => handler e w'
    end.

Notation "x <- m ;; k" := (bind m (fun x => k))
  (at level 20, m at level 99, k at level 200, only parsing).
Notation "m ;; k" := (bind m (fun _ => k))
  (at level 100, k at level 200, right associativity, only parsing).

Definition add_record (r : LogRecord) (w : World) : World :=
  {| table := table w; dialect := dialect w; fault := fault w;
     statements := statements w; records := records w ++ [r] |}.

Definition add_statement (stmt : Stmt) (w : World) : World :=
  {| table := table w; dialect := dialect w; fault := fault w;
     statements := statements w ++ [stmt]; records := records w |}.

Definition add_row (row : Product) (w : World) : World :=
  {| table := table w ++ [row]; dialect := dialect w; fault := fault w;
     statements := statements w; records := records w |}.

Definition emit (r : LogRecord) : M unit :=
  fun w => (Return tt, add_record r w).

Definition logger_info (m : list fragment) : M unit :=
  emit {| levelname := INFO; message := m; exc_info := false |}.

Definition logger_warning (m : list fragment) : M unit :=
  emit {| levelname := WARNING; message := m; exc_info := false |}.

(** [logger.error(..., exc_info=True)] *)
Definition logger_error (m : list fragment) : M unit :=
  emit {| levelname := ERROR; message := m; exc_info := true |}.

(** [await db.execute(stmt)].  The statement reaches the session, which
    raises when the connection or the engine fails; otherwise a select
    yields its rows and leaves the table alone, an insert adds its row. *)
Definition execute (stmt : Stmt) : M (list Product) :=
  fun w =>
    let w' := add_statement stmt w in
    match fault w with
    | Some e => (Raise e, w')
    | None =>
        match stmt with
        | StmtSelect q => (run_select (dialect w) q (table w), w')
        | StmtInsert row => (Return [], add_row row w')
        end
    end.

(** [Result.scalar_one_or_none()]: the row, [None] when there is none,
    [MultipleResultsFound] (a [SQLAlchemyError]) when there are several. *)
Definition scalar_one_or_none (result : list Product) : M (option Product) :=
  match result with
  | [] => ret None
  | [row] => ret (Some row)
  | _ :: _ :: _ =>
      raise (SQLAlchemyError "MultipleResultsFound"
               "Multiple rows were found when one or none was required")
  end.

(** [Result.scalars().all()] *)
Definition scalars_all (result : list Product) : list Product := result.

End Run.
Export Run.

(** ** app/routers/products.py *)

Module Products.

Definition not_found_detail (code : Z) : json :=
  JObj [("error", JStr "Product not found");
        ("message", JStr "指定された商品コードは登録されていません");
        ("code", JInt code)].

Definition database_error_detail : json :=
  JObj [("error", JStr "Database Error");
        ("message", JStr "データベース処理中にエラーが発生しました")].

Definition internal_error_detail : json :=
  JObj [("error", JStr "Internal Server Error");
        ("message", JStr "サーバー内部エラーが発生しました")].

(** The body of the [try] of [get_product_by_code]. *)
Definition get_product_by_code_try (code : Z) : M ProductSchema :=
  logger_info [Lit "商品検索開始: code="; FInt code] ;;
  let stmt := StmtSelect (where_code_eq code select_Product) in
  result <- execute stmt ;;
  product <- scalar_one_or_none result ;;
  match product with
  | None =>
      logger_warning [Lit "商品未登録: code="; FInt code] ;;
      raise (HTTPException 404 (not_found_detail code))
  | Some product =>
      logger_info [Lit "商品検索成功: prd_id="; FInt (prd_id product);
                   Lit ", name="; FStr (name product)] ;;
      ret (from_orm product)
  end.

(** Its [except] clauses, in the order they are written. *)
Definition get_product_by_code_except (e : exn) : M ProductSchema :=
  match e with
  | HTTPException _ _ => raise e
  | SQLAlchemyError _ _ =>
      logger_error [Lit "データベースエラー（商品検索）: "; FExc e] ;;
      raise (HTTPException 500 database_error_detail)
  | Exception_ _ _ =>
      logger_error [Lit "予期しないエラー（商品検索）: "; FExc e] ;;
      raise (HTTPException 500 internal_error_detail)
  end.

Definition get_product_by_code (code : Z) : M ProductSchema :=
  try_except (get_product_by_code_try code) get_product_by_code_except.

(** The body of the [try] of [get_products]. *)
Definition get_products_try (limit_ offset_ : Z) : M (list ProductSchema) :=
  logger_info [Lit "商品一覧取得開始: limit="; FInt limit_;
               Lit ", offset="; FInt offset_] ;;
  let stmt :=
    StmtSelect (order_by_Product_prd_id (offset offset_ (limit limit_ select_Product))) in
  result <- execute stmt ;;
  let products := scalars_all result in
  logger_info [Lit "商品一覧取得成功: 件数="; FInt (Z.of_nat (length products))] ;;
  ret (map from_orm products).

(** Its [except] clauses: there is none for [HTTPException], which falls
    to [except Exception]. *)
Definition get_products_except (e : exn) : M (list ProductSchema) :=
  match e with
  | SQLAlchemyError _ _ =>
      logger_error [Lit "データベースエラー（商品一覧取得）: "; FExc e] ;;
      raise (HTTPException 500 database_error_detail)
  | _ =>
      logger_error [Lit "予期しないエラー（商品一覧取得）: "; FExc e] ;;
      raise (HTTPException 500 internal_error_detail)
  end.

Definition get_products (limit_ offset_ : Z) : M (list ProductSchema) :=
  try_except (get_products_try limit_ offset_) get_products_except.

End Products.
Export Products.

(** ** app/main.py and the FastAPI application around the handlers *)

Module Main.

Record Request : Type := mkRequest {
  method : string;
  route : string;
  path_params : list (string * Z)
}.

Inductive Response : Type :=
| JSONResponse (status_code : Z) (content : json).

Definition status (r : Response) : Z :=
  match r with JSONResponse st _ => st end.

Definition body (r : Response) : json :=
  match r with JSONResponse _ content => content end.

Definition fallback_body : json :=
  JObj [("error", JStr "Internal Server Error");
        ("message", JStr "An unexpected error occurred")].

(** [@app.exception_handler(Exception)] *)
Definition global_exception_handler (request : Request) (exc : exn) (w : World)
  : Response * World :=
  let (_, w') := logger_error [Lit "Unhandled exception: "; FExc exc] w in
  (JSONResponse 500 fallback_body, w').

(** FastAPI's own handler for [HTTPException]: the exception's status,
    its detail under the key "detail". *)
Definition http_exception_handler (status_code : Z) (detail : json) : Response :=
  JSONResponse status_code (JObj [("detail", detail)]).

(** FastAPI's answer to a parameter that fails its declared constraints:
    422, with the offending location. *)
Definition request_validation_response (loc : list string) : Response :=
  JSONResponse 422 (JObj [("detail", JArr [JObj [("loc", JArr (map JStr loc))]])]).

(** Running an endpoint under the application: a returned value is
    serialised through the response model with status 200, an
    [HTTPException] goes to FastAPI's handler, any other exception to the
    handler registered for [Exception]. *)
Definition serve {A} (request : Request) (to_json : A -> json) (endpoint : M A)
  (w : World) : Response * World :=
  match endpoint w with
  | (Return a, w') => (JSONResponse 200 (to_json a), w')
  | (Raise (HTTPException st d), w') => (http_exception_handler st d, w')
  | (Raise e, w') => global_exception_handler request e w'
  end.

(** [Path(..., ge=1, le=99999999999999999999999999)] *)
Record PathConstraint : Type := mkPath { ge : Z; le : Z }.

Definition code_path : PathConstraint :=
  {| ge := 1; le := 99999999999999999999999999 |}.

Definition validates (p : PathConstraint) (v : Z) : bool :=
  (ge p <=? v)%Z && (v <=? le p)%Z.

(** [GET /api/v1/products/{code}] *)
Definition GET_product (c : Z) (w : World) : Response * World :=
  if validates code_path c then
    serve {| method := "GET"; route := "/api/v1/products/{code}";
             path_params := [("code", c)] |}
          ProductSchema_json (get_product_by_code c) w
  else (request_validation_response ["path"; "code"], w).

(** [GET /api/v1/products], [limit: int = 100], [offset: int = 0] *)
Definition GET_products (limit_ offset_ : option Z) (w : World) : Response * World :=
  serve {| method := "GET"; route := "/api/v1/products"; path_params := [] |}
        ProductSchema_list_json
        (get_products (default 100 limit_) (default 0 offset_)) w.

End Main.
Export Main.

(** ** Sample worlds *)

Module Samples.

Definition cola : Product :=
  {| prd_id := 1; code := 4901234567894; name := "cola"; price := 150 |}.
Definition tea : Product :=
  {| prd_id := 2; code := 4909876543210; name := "tea"; price := 130 |}.
Definition gum : Product :=
  {| prd_id := 3; code := 45123456; name := "gum"; price := 100 |}.
Definition gum_again : Product :=
  {| prd_id := 4; code := 45123456; name := "gum (relabelled)"; price := 110 |}.

Definition world_of (t : list Product) (f : option exn) : World :=
  {| table := t; dialect := strict; fault := f; statements := []; records := [] |}.

(** Rows stored out of identifier order. *)
Definition shop : World := world_of [gum; cola; tea] None.

Definition shop_with_duplicate : World := world_of [gum; cola; gum_again; tea] None.

Definition connection_lost : exn :=
  SQLAlchemyError "OperationalError" "(2003) Can't connect to MySQL server on 'db:3306'".

Definition shop_offline : World := world_of [gum; cola; tea] (Some connection_lost).

End Samples.
Export Samples.

(** ** More sample worlds *)

Module MoreSamples.

Definition out_of_memory : exn := Exception_ "MemoryError" "out of memory".

Definition shop_crashing : World := world_of [gum; cola; tea] (Some out_of_memory).

(** The rows of [shop], stored in another order. *)
Definition shop_reshelved : World := world_of [tea; gum; cola] None.

(** The rows of [shop] behind SQLite. *)
Definition shop_on_sqlite : World :=
  {| table := [gum; cola; tea]; dialect := sqlite; fault := None;
     statements := []; records := [] |}.

End MoreSamples.
Export MoreSamples.

(** Two worlds with the same table behind the same engine, failing the
    same way; they may differ in what was executed and logged so far. *)
Definition same_store (w1 w2 : World) : Prop :=
  table w1 = table w2 /\ dialect w1 = dialect w2 /\ fault w1 = fault w2.

(** The record each handler logs first. *)
Definition lookup_started (c : Z) : LogRecord :=
  {| levelname := INFO; message := [Lit "商品検索開始: code="; FInt c];
     exc_info := false |}.

Definition listing_started (L O : Z) : LogRecord :=
  {| levelname := INFO;
     message := [Lit "商品一覧取得開始: limit="; FInt L; Lit ", offset="; FInt O];
     exc_info := false |}.

(** The internal identifier tells the rows of a table apart. *)
Definition prd_id_is_key (t : list Product) : Prop :=
  forall r1 r2 : Product, r1 ∈ t -> r2 ∈ t -> prd_id r1 = prd_id r2 -> r1 = r2.

(** ** Reading aids for the statements below *)

(** The rows a client expects for [limit=L], [offset=O] out of a listing:
    the first [O] skipped, then at most [L] taken. *)
Definition page (L O : Z) (rows : list Product) : list Product :=
  take (Z.to_nat L) (drop (Z.to_nat O) rows).

(** Unfolds a handler down to the primitives of the monad. *)
Ltac unfold_handler :=
  unfold get_product_by_code, get_products, try_except,
    get_product_by_code_try, get_products_try,
    get_product_by_code_except, get_products_except,
    bind, logger_info, logger_warning, logger_error, emit, execute,
    scalar_one_or_none, scalars_all, ret, raise.

(** * Properties *)

(** ** The order of the listing *)

#[global] Instance prd_id_le_trans : Transitive prd_id_le.
Proof. intros a b c; unfold prd_id_le; lia. Qed.

#[global] Instance prd_id_le_total : Total prd_id_le.
Proof. intros a b; unfold prd_id_le; lia. Qed.

Lemma order_by_sorted (rows : list Product) :
  StronglySorted prd_id_le (apply_order_by true rows).
Proof. apply StronglySorted_merge_sort; apply _. Qed.

Lemma order_by_permutation (rows : list Product) :
  apply_order_by true rows ≡ₚ rows.
Proof. apply merge_sort_Permutation. Qed.

(** ** The store primitives *)

Lemma execute_fault (stmt : Stmt) (w : World) (e : exn) :
  fault w = Some e -> execute stmt w = (Raise e, add_statement stmt w).
Proof. intros Hf. unfold execute. now rewrite Hf. Qed.

Lemma execute_select (q : Select) (w : World) :
  fault w = None ->
  execute (StmtSelect q) w
  = (run_select (dialect w) q (table w), add_statement (StmtSelect q) w).
Proof. intros Hf. unfold execute. now rewrite Hf. Qed.

Lemma execute_select_table (q : Select) (w : World) :
  table (snd (execute (StmtSelect q) w)) = table w.
Proof. unfold execute. now destruct (fault w). Qed.

Lemma run_select_lookup (d : Dialect) (c : Z) (t : list Product) :
  run_select d (where_code_eq c select_Product) t
  = Return (filter (fun p => code p = c) t).
Proof. reflexivity. Qed.

Lemma run_select_page (d : Dialect) (L O : Z) (t : list Product) :
  (0 <= L)%Z -> (0 <= O)%Z ->
  run_select d (order_by_Product_prd_id (offset O (limit L select_Product))) t
  = Return (take (Z.to_nat L) (drop (Z.to_nat O) (apply_order_by true t))).
Proof.
  intros HL HO. unfold run_select; simpl.
  apply Z.leb_le in HL, HO. now rewrite HO, HL.
Qed.

(** ** The emitted records do not reach the table *)

Lemma emit_table (r : LogRecord) (w : World) : table (snd (emit r w)) = table w.
Proof. reflexivity. Qed.

(** ** Product lookup, step by step *)

Lemma lookup_try_rows (c : Z) (w : World) :
  fault w = None ->
  get_product_by_code_try c w
  = (product <- scalar_one_or_none (filter (fun p => code p = c) (table w)) ;;
     match product with
     | None =>
         logger_warning [Lit "商品未登録: code="; FInt c] ;;
         raise (HTTPException 404 (not_found_detail c))
     | Some product =>
         logger_info [Lit "商品検索成功: prd_id="; FInt (prd_id product);
                      Lit ", name="; FStr (name product)] ;;
         ret (from_orm product)
     end)
      (add_statement (StmtSelect (where_code_eq c select_Product))
         (add_record {| levelname := INFO;
                        message := [Lit "商品検索開始: code="; FInt c];
                        exc_info := false |} w)).
Proof.
  intros Hf. unfold get_product_by_code_try.
  unfold bind at 1. unfold logger_info at 1, emit. unfold bind at 1.
  rewrite execute_select by exact Hf.
  now rewrite run_select_lookup.
Qed.

Lemma lookup_one_row (c : Z) (w : World) (row : Product) :
  fault w = None ->
  filter (fun p => code p = c) (table w) = [row] ->
  fst (get_product_by_code c w) = Return (from_orm row).
Proof.
  intros Hf Hrows. unfold get_product_by_code, try_except.
  rewrite lookup_try_rows by exact Hf. now rewrite Hrows.
Qed.

Lemma lookup_no_row (c : Z) (w : World) :
  fault w = None ->
  filter (fun p => code p = c) (table w) = [] ->
  fst (get_product_by_code c w) = Raise (HTTPException 404 (not_found_detail c)).
Proof.
  intros Hf Hrows. unfold get_product_by_code, try_except.
  rewrite lookup_try_rows by exact Hf. now rewrite Hrows.
Qed.

Lemma lookup_many_rows (c : Z) (w : World) :
  fault w = None ->
  (2 <= length (filter (fun p => code p = c) (table w)))%nat ->
  fst (get_product_by_code c w) = Raise (HTTPException 500 database_error_detail).
Proof.
  intros Hf Hrows. unfold get_product_by_code, try_except.
  rewrite lookup_try_rows by exact Hf.
  destruct (filter (fun p => code p = c) (table w)) as [|r1 [|r2 rest]];
    simpl in Hrows; try lia.
  reflexivity.
Qed.

(** How the application answers once the path parameter has passed its
    constraints. *)
Lemma GET_product_valid (c : Z) (w : World) :
  validates code_path c = true ->
  GET_product c w
  = serve {| method := "GET"; route := "/api/v1/products/{code}";
             path_params := [("code", c)] |}
          ProductSchema_json (get_product_by_code c) w.
Proof. intros Hv. unfold GET_product. now rewrite Hv. Qed.

Lemma serve_return {A} (request : Request) (to_json : A -> json)
  (endpoint : M A) (w : World) (a : A) :
  fst (endpoint w) = Return a ->
  fst (serve request to_json endpoint w) = JSONResponse 200 (to_json a).
Proof.
  unfold serve. destruct (endpoint w) as [r w']; simpl.
  now intros ->.
Qed.

Lemma serve_http_exception {A} (request : Request) (to_json : A -> json)
  (endpoint : M A) (w : World) (st : Z) (d : json) :
  fst (endpoint w) = Raise (HTTPException st d) ->
  fst (serve request to_json endpoint w) = JSONResponse st (JObj [("detail", d)]).
Proof.
  unfold serve. destruct (endpoint w) as [r w']; simpl.
  now intros ->.
Qed.

Lemma validates_range (c : Z) :
  validates code_path c = true <-> (1 <= c <= 99999999999999999999999999)%Z.
Proof.
  unfold validates, code_path; simpl.
  rewrite andb_true_iff, !Z.leb_le. tauto.
Qed.

(** ** Product lookup *)

(** C1. When exactly one row of the table has the code that is asked for
    and the session does not fail, [get_product_by_code] returns the
    mapping of that row; the application serialises it with status 200,
    and the [code] field of the body is the code that was asked for.  For
    a code inside the bounds of the path parameter this is the answer of
    [GET /products/{code}]. *)
Theorem C1_lookup_found (c : Z) (w : World) (row : Product) (request : Request) :
  fault w = None ->
  filter (fun p => code p = c) (table w) = [row] ->
  fst (get_product_by_code c w) = Return (from_orm row)
  /\ fst (serve request ProductSchema_json (get_product_by_code c) w)
     = JSONResponse 200 (ProductSchema_json (from_orm row))
  /\ get_field "code" (ProductSchema_json (from_orm row)) = Some (JInt c)
  /\ ((1 <= c <= 99999999999999999999999999)%Z ->
      fst (GET_product c w) = JSONResponse 200 (ProductSchema_json (from_orm row))).
Proof.
  intros Hf Hrows.
  pose proof (lookup_one_row c w row Hf Hrows) as Hret.
  assert (Hcode : code row = c).
  { assert (Hin : row ∈ filter (fun p => code p = c) (table w))
      by (rewrite Hrows; apply list_elem_of_here).
    apply list_elem_of_filter in Hin. tauto. }
  repeat split.
  - exact Hret.
  - now apply serve_return.
  - simpl. now rewrite Hcode.
  - intros Hr. apply validates_range in Hr.
    rewrite GET_product_valid by exact Hr. now apply serve_return.
Qed.

Lemma C1_lookup_found_witness :
  fst (get_product_by_code 45123456 shop) = Return (from_orm gum)
  /\ fst (serve (mkRequest "GET" "/api/v1/products/{code}" [("code", 45123456%Z)])
            ProductSchema_json (get_product_by_code 45123456) shop)
     = JSONResponse 200 (ProductSchema_json (from_orm gum))
  /\ get_field "code" (ProductSchema_json (from_orm gum)) = Some (JInt 45123456)
  /\ ((1 <= 45123456 <= 99999999999999999999999999)%Z ->
      fst (GET_product 45123456 shop)
      = JSONResponse 200 (ProductSchema_json (from_orm gum))).
Proof.
  apply (C1_lookup_found 45123456 shop gum); reflexivity.
Defined.

(** C2. For a code inside the bounds of the path parameter that no row of
    the table has, and a session that does not fail, [get_product_by_code]
    raises the 404 [HTTPException] and [GET /products/{code}] answers 404;
    the detail it carries has an error kind, a message and the code that
    was asked for. *)
Theorem C2_lookup_not_found (c : Z) (w : World) :
  (1 <= c <= 99999999999999999999999999)%Z ->
  fault w = None ->
  filter (fun p => code p = c) (table w) = [] ->
  fst (get_product_by_code c w) = Raise (HTTPException 404 (not_found_detail c))
  /\ fst (GET_product c w) = JSONResponse 404 (JObj [("detail", not_found_detail c)])
  /\ get_field "error" (not_found_detail c) = Some (JStr "Product not found")
  /\ get_field "message" (not_found_detail c)
     = Some (JStr "指定された商品コードは登録されていません")
  /\ get_field "code" (not_found_detail c) = Some (JInt c).
Proof.
  intros Hr Hf Hrows. apply validates_range in Hr.
  pose proof (lookup_no_row c w Hf Hrows) as Hraise.
  repeat split; try reflexivity.
  - exact Hraise.
  - rewrite GET_product_valid by exact Hr. now apply serve_http_exception.
Qed.

Lemma C2_lookup_not_found_witness :
  fst (get_product_by_code 7 shop) = Raise (HTTPException 404 (not_found_detail 7))
  /\ fst (GET_product 7 shop) = JSONResponse 404 (JObj [("detail", not_found_detail 7)])
  /\ get_field "error" (not_found_detail 7) = Some (JStr "Product not found")
  /\ get_field "message" (not_found_detail 7)
     = Some (JStr "指定された商品コードは登録されていません")
  /\ get_field "code" (not_found_detail 7) = Some (JInt 7).
Proof.
  apply (C2_lookup_not_found 7 shop); [lia | reflexivity | reflexivity].
Defined.

(** ** Product listing *)

Lemma page_sorted (L O : Z) (rows : list Product) :
  StronglySorted prd_id_le rows -> StronglySorted prd_id_le (page L O rows).
Proof.
  intros Hs. unfold page.
  assert (Hd : StronglySorted prd_id_le (drop (Z.to_nat O) rows)).
  { rewrite <- (take_drop (Z.to_nat O) rows) in Hs.
    now apply StronglySorted_app_1_r in Hs. }
  rewrite <- (take_drop (Z.to_nat L) (drop (Z.to_nat O) rows)) in Hd.
  now apply StronglySorted_app_1_l in Hd.
Qed.

Lemma page_length (L O : Z) (rows : list Product) :
  (length (page L O rows) <= Z.to_nat L)%nat.
Proof. unfold page. rewrite length_take. lia. Qed.

Lemma listing_try_rows (L O : Z) (w : World) :
  fault w = None -> (0 <= L)%Z -> (0 <= O)%Z ->
  fst (get_products_try L O w)
  = Return (map from_orm (page L O (apply_order_by true (table w)))).
Proof.
  intros Hf HL HO. unfold get_products_try.
  unfold bind at 1. unfold logger_info at 1, emit. unfold bind at 1.
  rewrite execute_select by exact Hf. simpl dialect. simpl table.
  now rewrite run_select_page.
Qed.

Lemma listing_rows (L O : Z) (w : World) :
  fault w = None -> (0 <= L)%Z -> (0 <= O)%Z ->
  fst (get_products L O w)
  = Return (map from_orm (page L O (apply_order_by true (table w)))).
Proof.
  intros Hf HL HO. pose proof (listing_try_rows L O w Hf HL HO) as Htry.
  unfold get_products, try_except.
  destruct (get_products_try L O w) as [r w']; simpl in Htry. now subst r.
Qed.

(** C3, amended to limits and offsets that are not negative.  With a
    session that does not fail, [get_products] answers from one listing
    of the table in ascending [prd_id] order: for a limit [L >= 0] and an
    offset [O >= 0] it skips the first [O] rows and takes at most [L];
    with no parameters the limit is 100 and the offset 0, so at most 100
    rows come back, in that order; and with [limit=2], [offset=1] over at
    least three rows exactly the second and the third row of the listing
    come back. *)
Theorem C3_listing_page (w : World) :
  fault w = None ->
  exists sorted : list Product,
    sorted ≡ₚ table w
    /\ StronglySorted prd_id_le sorted
    /\ (forall L O : Z, (0 <= L)%Z -> (0 <= O)%Z ->
          fst (get_products L O w) = Return (map from_orm (page L O sorted))
          /\ fst (GET_products (Some L) (Some O) w)
             = JSONResponse 200 (ProductSchema_list_json (map from_orm (page L O sorted)))
          /\ (length (page L O sorted) <= Z.to_nat L)%nat
          /\ StronglySorted prd_id_le (page L O sorted))
    /\ (fst (GET_products None None w)
         = JSONResponse 200 (ProductSchema_list_json (map from_orm (take 100 sorted)))
        /\ (length (take 100 sorted) <= 100)%nat)
    /\ ((3 <= length (table w))%nat ->
        exists r1 r2 r3 rest,
          sorted = r1 :: r2 :: r3 :: rest
          /\ fst (GET_products (Some 2) (Some 1) w)
             = JSONResponse 200 (ProductSchema_list_json [from_orm r2; from_orm r3])).
Proof.
  intros Hf. exists (apply_order_by true (table w)).
  assert (Hgen : forall L O : Z, (0 <= L)%Z -> (0 <= O)%Z ->
    fst (GET_products (Some L) (Some O) w)
    = JSONResponse 200
        (ProductSchema_list_json
           (map from_orm (page L O (apply_order_by true (table w)))))).
  { intros L O HL HO. unfold GET_products. apply serve_return. simpl.
    now apply listing_rows. }
  split; [apply order_by_permutation|].
  split; [apply order_by_sorted|].
  split; [|split].
  - intros L O HL HO. split; [now apply listing_rows|].
    split; [now apply Hgen|].
    split; [apply page_length|apply page_sorted, order_by_sorted].
  - split.
    + unfold GET_products. apply serve_return. simpl.
      rewrite listing_rows by (trivial; lia). reflexivity.
    + rewrite length_take. lia.
  - intros Hlen.
    rewrite <- (Permutation_length (order_by_permutation (table w))) in Hlen.
    destruct (apply_order_by true (table w)) as [|r1 [|r2 [|r3 rest]]] eqn:Hsorted;
      simpl in Hlen; try lia.
    exists r1, r2, r3, rest. split; [reflexivity|].
    rewrite (Hgen 2%Z 1%Z) by lia. reflexivity.
Qed.

Lemma C3_listing_page_witness :
  exists sorted : list Product,
    sorted ≡ₚ table shop
    /\ StronglySorted prd_id_le sorted
    /\ (forall L O : Z, (0 <= L)%Z -> (0 <= O)%Z ->
          fst (get_products L O shop) = Return (map from_orm (page L O sorted))
          /\ fst (GET_products (Some L) (Some O) shop)
             = JSONResponse 200 (ProductSchema_list_json (map from_orm (page L O sorted)))
          /\ (length (page L O sorted) <= Z.to_nat L)%nat
          /\ StronglySorted prd_id_le (page L O sorted))
    /\ (fst (GET_products None None shop)
         = JSONResponse 200 (ProductSchema_list_json (map from_orm (take 100 sorted)))
        /\ (length (take 100 sorted) <= 100)%nat)
    /\ ((3 <= length (table shop))%nat ->
        exists r1 r2 r3 rest,
          sorted = r1 :: r2 :: r3 :: rest
          /\ fst (GET_products (Some 2) (Some 1) shop)
             = JSONResponse 200 (ProductSchema_list_json [from_orm r2; from_orm r3])).
Proof.
  apply (C3_listing_page shop). reflexivity.
Defined.

(** C3 as it is worded, for every limit and offset, fails at
    [limit=-2], [offset=0] with a session that does not fail.  The handler
    passes the limit on as it is: behind a strict engine the statement is
    refused and no page comes back but the 500 of a store error, behind
    SQLite the limit is lifted and all three rows come back, which are
    not at most [-2]. *)
Lemma C3_negative_limit_counterexample :
  fault shop = None
  /\ fst (get_products (-2) 0 shop) = Raise (HTTPException 500 database_error_detail)
  /\ (forall products, fst (get_products (-2) 0 shop) <> Return products)
  /\ fault shop_on_sqlite = None
  /\ fst (get_products (-2) 0 shop_on_sqlite)
     = Return [from_orm cola; from_orm tea; from_orm gum]
  /\ ~ (Z.of_nat (length [from_orm cola; from_orm tea; from_orm gum]) <= -2)%Z.
Proof.
  split; [reflexivity|]. split; [vm_compute; reflexivity|].
  split; [intros products; vm_compute; discriminate|].
  split; [reflexivity|]. split; [vm_compute; reflexivity|].
  simpl. lia.
Qed.

(** On the sample shop the listing is cola, tea, gum, and the page asked
    for with [limit=2], [offset=1] is tea, gum. *)
Example listing_shop_second_page :
  fst (GET_products (Some 2) (Some 1) shop)
  = JSONResponse 200 (ProductSchema_list_json [from_orm tea; from_orm gum]).
Proof. vm_compute. reflexivity. Qed.

(** ** Validation of the path parameter *)

(** A code outside [1, 99999999999999999999999999] is answered with 422
    and the world is left as it was: no statement reaches the session and
    nothing is logged. *)
Lemma GET_product_rejected (c : Z) (w : World) :
  (c <= 0 \/ 99999999999999999999999999 < c)%Z ->
  GET_product c w = (request_validation_response ["path"; "code"], w).
Proof.
  intros Hout. unfold GET_product.
  destruct (validates code_path c) eqn:Hv; [|reflexivity].
  apply validates_range in Hv. lia.
Qed.

(** C4. The upper bound of the path parameter is written with twenty-six
    nines, so the twenty-six digit code [10^25] passes validation: the
    lookup statement reaches the session and the answer is the 404 of a
    code that is not registered, not a validation error. *)
Theorem C4_code_of_26_digits_is_looked_up :
  (10000000000000000000000000 = 10 ^ 25)%Z
  /\ validates code_path 10000000000000000000000000 = true
  /\ fst (GET_product 10000000000000000000000000 shop)
     = JSONResponse 404 (JObj [("detail", not_found_detail 10000000000000000000000000)])
  /\ statements (snd (GET_product 10000000000000000000000000 shop))
     = [StmtSelect (where_code_eq 10000000000000000000000000 select_Product)].
Proof. vm_compute. repeat split; reflexivity. Qed.

(** ** Store failures *)

Lemma lookup_fault (c : Z) (w : World) (e : exn) :
  fault w = Some e ->
  get_product_by_code c w
  = get_product_by_code_except e
      (add_statement (StmtSelect (where_code_eq c select_Product))
         (add_record {| levelname := INFO;
                        message := [Lit "商品検索開始: code="; FInt c];
                        exc_info := false |} w)).
Proof.
  intros Hf. unfold get_product_by_code, try_except, get_product_by_code_try.
  unfold bind at 1. unfold logger_info at 1, emit. unfold bind at 1.
  rewrite execute_fault with (e := e) by exact Hf. reflexivity.
Qed.

Lemma listing_fault (L O : Z) (w : World) (e : exn) :
  fault w = Some e ->
  get_products L O w
  = get_products_except e
      (add_statement
         (StmtSelect (order_by_Product_prd_id (offset O (limit L select_Product))))
         (add_record {| levelname := INFO;
                        message := [Lit "商品一覧取得開始: limit="; FInt L;
                                    Lit ", offset="; FInt O];
                        exc_info := false |} w)).
Proof.
  intros Hf. unfold get_products, try_except, get_products_try.
  unfold bind at 1. unfold logger_info at 1, emit. unfold bind at 1.
  rewrite execute_fault with (e := e) by exact Hf. reflexivity.
Qed.

(** C5. When the session raises a [SQLAlchemyError], whatever its class
    and text, both handlers raise the 500 [HTTPException] whose detail has
    the error kind "Database Error", and the application answers with
    that fixed detail: the answer is the same for every class and text,
    so nothing of the exception reaches the client. *)
Theorem C5_store_failure (cls text : string) (w : World) :
  fault w = Some (SQLAlchemyError cls text) ->
  get_field "error" database_error_detail = Some (JStr "Database Error")
  /\ (forall c : Z,
        fst (get_product_by_code c w) = Raise (HTTPException 500 database_error_detail)
        /\ ((1 <= c <= 99999999999999999999999999)%Z ->
            fst (GET_product c w)
            = JSONResponse 500 (JObj [("detail", database_error_detail)])))
  /\ (forall L O : Z,
        fst (get_products L O w) = Raise (HTTPException 500 database_error_detail))
  /\ (forall limit_ offset_ : option Z,
        fst (GET_products limit_ offset_ w)
        = JSONResponse 500 (JObj [("detail", database_error_detail)])).
Proof.
  intros Hf.
  assert (Hlookup : forall c : Z,
    fst (get_product_by_code c w) = Raise (HTTPException 500 database_error_detail)).
  { intros c. now rewrite (lookup_fault c w _ Hf). }
  assert (Hlisting : forall L O : Z,
    fst (get_products L O w) = Raise (HTTPException 500 database_error_detail)).
  { intros L O. now rewrite (listing_fault L O w _ Hf). }
  split; [reflexivity|]. split; [|split].
  - intros c. split; [apply Hlookup|].
    intros Hr. apply validates_range in Hr.
    rewrite GET_product_valid by exact Hr.
    apply serve_http_exception, Hlookup.
  - exact Hlisting.
  - intros limit_ offset_. unfold GET_products.
    apply serve_http_exception, Hlisting.
Qed.

Lemma C5_store_failure_witness :
  get_field "error" database_error_detail = Some (JStr "Database Error")
  /\ (forall c : Z,
        fst (get_product_by_code c shop_offline)
        = Raise (HTTPException 500 database_error_detail)
        /\ ((1 <= c <= 99999999999999999999999999)%Z ->
            fst (GET_product c shop_offline)
            = JSONResponse 500 (JObj [("detail", database_error_detail)])))
  /\ (forall L O : Z,
        fst (get_products L O shop_offline)
        = Raise (HTTPException 500 database_error_detail))
  /\ (forall limit_ offset_ : option Z,
        fst (GET_products limit_ offset_ shop_offline)
        = JSONResponse 500 (JObj [("detail", database_error_detail)])).
Proof.
  apply (C5_store_failure "OperationalError"
           "(2003) Can't connect to MySQL server on 'db:3306'" shop_offline).
  reflexivity.
Defined.

(** The text of the exception goes to the log, with the traceback. *)
Example store_failure_is_logged :
  last (records (snd (GET_product 45123456 shop_offline)))
  = Some {| levelname := ERROR;
            message := [Lit "データベースエラー（商品検索）: "; FExc connection_lost];
            exc_info := true |}.
Proof. vm_compute. reflexivity. Qed.

(** ** The fallback of the application *)

(** C6. [global_exception_handler] answers 500 with the fixed body
    {"error": "Internal Server Error", "message": "An unexpected error
    occurred"} for every request, exception and world; an endpoint that
    lets a [SQLAlchemyError] or any other plain exception escape is
    answered with exactly that. *)
Theorem C6_global_fallback (request : Request) (exc : exn) (w : World) :
  fst (global_exception_handler request exc w)
  = JSONResponse 500
      (JObj [("error", JStr "Internal Server Error");
             ("message", JStr "An unexpected error occurred")])
  /\ (forall (A : Type) (to_json : A -> json) (cls text : string),
        fst (serve request to_json (raise (SQLAlchemyError cls text)) w)
        = JSONResponse 500 fallback_body
        /\ fst (serve request to_json (raise (Exception_ cls text)) w)
           = JSONResponse 500 fallback_body).
Proof. split; [reflexivity|]. intros A to_json cls text. split; reflexivity. Qed.

(** ** What a request leaves behind *)

Lemma serve_table {A} (request : Request) (to_json : A -> json)
  (endpoint : M A) (w : World) :
  table (snd (serve request to_json endpoint w)) = table (snd (endpoint w)).
Proof.
  unfold serve. destruct (endpoint w) as [[a|[st d|cls text|cls text]] w'];
    reflexivity.
Qed.

Lemma serve_statements {A} (request : Request) (to_json : A -> json)
  (endpoint : M A) (w : World) :
  statements (snd (serve request to_json endpoint w)) = statements (snd (endpoint w)).
Proof.
  unfold serve. destruct (endpoint w) as [[a|[st d|cls text|cls text]] w'];
    reflexivity.
Qed.

Lemma lookup_table (c : Z) (w : World) :
  table (snd (get_product_by_code c w)) = table w.
Proof.
  unfold_handler. simpl.
  destruct (fault w) as [[st d|cls text|cls text]|]; try reflexivity.
  rewrite run_select_lookup.
  destruct (filter (fun p => code p = c) (table w)) as [|r1 [|r2 rest]];
    reflexivity.
Qed.

Lemma lookup_statements (c : Z) (w : World) :
  statements (snd (get_product_by_code c w))
  = (statements w ++ [StmtSelect (where_code_eq c select_Product)])%list.
Proof.
  unfold_handler. simpl.
  destruct (fault w) as [[st d|cls text|cls text]|]; try reflexivity.
  rewrite run_select_lookup.
  destruct (filter (fun p => code p = c) (table w)) as [|r1 [|r2 rest]];
    reflexivity.
Qed.

Lemma listing_table (L O : Z) (w : World) :
  table (snd (get_products L O w)) = table w.
Proof.
  unfold_handler. simpl.
  destruct (fault w) as [[st d|cls text|cls text]|]; try reflexivity.
  destruct (run_select _ _ _) as [rows|[st d|cls text|cls text]]; reflexivity.
Qed.

Lemma listing_statements (L O : Z) (w : World) :
  statements (snd (get_products L O w))
  = (statements w
     ++ [StmtSelect {| whereclause := None; limit_clause := Some L;
                       offset_clause := Some O; order_by_prd_id := true |}])%list.
Proof.
  unfold_handler. simpl.
  destruct (fault w) as [[st d|cls text|cls text]|]; try reflexivity.
  destruct (run_select _ _ _) as [rows|[st d|cls text|cls text]]; reflexivity.
Qed.

(** [get_products] either returns its rows or raises a 500. *)
Lemma listing_outcome (L O : Z) (w : World) :
  (exists rows, fst (get_products L O w) = Return rows)
  \/ (exists d, fst (get_products L O w) = Raise (HTTPException 500 d)).
Proof.
  unfold_handler. simpl.
  destruct (fault w) as [[st d|cls text|cls text]|]; simpl; eauto.
  destruct (run_select _ _ _) as [rows|[st d|cls text|cls text]]; simpl; eauto.
Qed.

(** C7. An [HTTPException] that leaves the [try] block of
    [get_product_by_code] leaves the handler as it is, with the same
    status and detail, and neither the store-error nor the catch-all
    clause logs or replaces it; the 404 of a missing product is therefore
    never turned into a 500. *)
Theorem C7_http_exception_reraised (c : Z) (w w' : World) (st : Z) (d : json) :
  get_product_by_code_try c w = (Raise (HTTPException st d), w') ->
  get_product_by_code c w = (Raise (HTTPException st d), w')
  /\ get_product_by_code_except (HTTPException st d) w' = (Raise (HTTPException st d), w')
  /\ (st = 404%Z ->
      forall d', fst (get_product_by_code c w) <> Raise (HTTPException 500 d')).
Proof.
  intros Htry.
  assert (Hsame : get_product_by_code c w = (Raise (HTTPException st d), w')).
  { unfold get_product_by_code, try_except. now rewrite Htry. }
  split; [exact Hsame|]. split; [reflexivity|].
  intros -> d'. rewrite Hsame. simpl. intros Heq. inversion Heq.
Qed.

Lemma C7_http_exception_reraised_witness :
  get_product_by_code 7 shop
  = (Raise (HTTPException 404 (not_found_detail 7)),
     snd (get_product_by_code_try 7 shop))
  /\ get_product_by_code_except (HTTPException 404 (not_found_detail 7))
       (snd (get_product_by_code_try 7 shop))
     = (Raise (HTTPException 404 (not_found_detail 7)),
        snd (get_product_by_code_try 7 shop))
  /\ (404%Z = 404%Z ->
      forall d', fst (get_product_by_code 7 shop) <> Raise (HTTPException 500 d')).
Proof.
  apply (C7_http_exception_reraised 7 shop (snd (get_product_by_code_try 7 shop))
           404 (not_found_detail 7)).
  reflexivity.
Defined.

(** C8. [get_products] hands the statement to the session with the limit
    and the offset it was given, whatever their sign, and the application
    puts no constraint in front of it: the answer to [GET /products] is
    never the 422 of a validation error. *)
Theorem C8_limit_offset_passed_through (L O : Z) (w : World) :
  statements (snd (get_products L O w))
  = (statements w
     ++ [StmtSelect {| whereclause := None; limit_clause := Some L;
                       offset_clause := Some O; order_by_prd_id := true |}])%list
  /\ statements (snd (GET_products (Some L) (Some O) w))
     = (statements w
        ++ [StmtSelect {| whereclause := None; limit_clause := Some L;
                          offset_clause := Some O; order_by_prd_id := true |}])%list
  /\ (status (fst (GET_products (Some L) (Some O) w)) = 200%Z
      \/ status (fst (GET_products (Some L) (Some O) w)) = 500%Z).
Proof.
  split; [apply listing_statements|]. split.
  - unfold GET_products. rewrite serve_statements. apply listing_statements.
  - unfold GET_products. simpl default.
    destruct (listing_outcome L O w) as [[rows Hr]|[d Hr]].
    + left. now rewrite (serve_return _ _ _ _ _ Hr).
    + right. now rewrite (serve_http_exception _ _ _ _ _ _ Hr).
Qed.

(** On the strict engine the negative limit arrives as it was sent and is
    refused there, on SQLite it arrives the same way and lifts the limit. *)
Example negative_limit_reaches_the_engine :
  statements (snd (GET_products (Some (-2)%Z) (Some 0%Z) shop))
  = [StmtSelect {| whereclause := None; limit_clause := Some (-2)%Z;
                   offset_clause := Some 0%Z; order_by_prd_id := true |}]
  /\ status (fst (GET_products (Some (-2)%Z) (Some 0%Z) shop)) = 500%Z.
Proof. vm_compute. split; reflexivity. Qed.

(** C9. Whatever the outcome, neither handler changes the table: each
    hands exactly one statement to the session, a [select], and the table
    after the request is the table before it. *)
Theorem C9_store_unchanged (w : World) :
  (forall c : Z,
     table (snd (get_product_by_code c w)) = table w
     /\ table (snd (GET_product c w)) = table w
     /\ exists q, statements (snd (get_product_by_code c w))
                  = (statements w ++ [StmtSelect q])%list)
  /\ (forall L O : Z,
        table (snd (get_products L O w)) = table w
        /\ exists q, statements (snd (get_products L O w))
                     = (statements w ++ [StmtSelect q])%list)
  /\ (forall limit_ offset_ : option Z,
        table (snd (GET_products limit_ offset_ w)) = table w).
Proof.
  split; [|split].
  - intros c. split; [apply lookup_table|]. split.
    + unfold GET_product. destruct (validates code_path c); [|reflexivity].
      rewrite serve_table. apply lookup_table.
    + eexists. apply lookup_statements.
  - intros L O. split; [apply listing_table|].
    eexists. apply listing_statements.
  - intros limit_ offset_. unfold GET_products.
    rewrite serve_table. apply listing_table.
Qed.

(** An insert handed to the same session does change the table. *)
Example insert_changes_the_table :
  table (snd (execute (StmtInsert gum_again) shop)) = [gum; cola; tea; gum_again].
Proof. reflexivity. Qed.

(** C10. When several rows of the table have the code that is asked for,
    [scalar_one_or_none] raises [MultipleResultsFound], a
    [SQLAlchemyError]: the handler returns none of the rows and raises the
    500 [HTTPException] with the "Database Error" detail. *)
Theorem C10_duplicate_code (c : Z) (w : World) :
  fault w = None ->
  (2 <= length (filter (fun p => code p = c) (table w)))%nat ->
  fst (get_product_by_code c w) = Raise (HTTPException 500 database_error_detail)
  /\ (forall p, fst (get_product_by_code c w) <> Return p)
  /\ get_field "error" database_error_detail = Some (JStr "Database Error")
  /\ ((1 <= c <= 99999999999999999999999999)%Z ->
      fst (GET_product c w) = JSONResponse 500 (JObj [("detail", database_error_detail)])).
Proof.
  intros Hf Hrows. pose proof (lookup_many_rows c w Hf Hrows) as Hraise.
  split; [exact Hraise|]. split; [|split].
  - intros p. rewrite Hraise. discriminate.
  - reflexivity.
  - intros Hr. apply validates_range in Hr.
    rewrite GET_product_valid by exact Hr. now apply serve_http_exception.
Qed.

Lemma C10_duplicate_code_witness :
  fst (get_product_by_code 45123456 shop_with_duplicate)
  = Raise (HTTPException 500 database_error_detail)
  /\ (forall p, fst (get_product_by_code 45123456 shop_with_duplicate) <> Return p)
  /\ get_field "error" database_error_detail = Some (JStr "Database Error")
  /\ ((1 <= 45123456 <= 99999999999999999999999999)%Z ->
      fst (GET_product 45123456 shop_with_duplicate)
      = JSONResponse 500 (JObj [("detail", database_error_detail)])).
Proof.
  apply (C10_duplicate_code 45123456 shop_with_duplicate);
    [reflexivity | vm_compute; lia].
Defined.

(** * Further properties of the handlers *)

(** ** Unexpected exceptions *)

(** X1. When the session raises an exception that is neither an
    [HTTPException] nor a [SQLAlchemyError], both handlers raise the 500
    [HTTPException] with the "Internal Server Error" detail of the
    handler, whatever the class and text of the exception; this is the
    handler's own detail, not the body of the application's fallback. *)
Theorem unexpected_exception_is_a_500 (cls text : string) (w : World) :
  fault w = Some (Exception_ cls text) ->
  (forall c : Z,
     fst (get_product_by_code c w) = Raise (HTTPException 500 internal_error_detail)
     /\ ((1 <= c <= 99999999999999999999999999)%Z ->
         fst (GET_product c w)
         = JSONResponse 500 (JObj [("detail", internal_error_detail)])))
  /\ (forall (L O : Z) (limit_ offset_ : option Z),
        fst (get_products L O w) = Raise (HTTPException 500 internal_error_detail)
        /\ fst (GET_products limit_ offset_ w)
           = JSONResponse 500 (JObj [("detail", internal_error_detail)]))
  /\ get_field "error" internal_error_detail = Some (JStr "Internal Server Error")
  /\ JObj [("detail", internal_error_detail)] <> fallback_body.
Proof.
  intros Hf.
  assert (Hlookup : forall c : Z,
    fst (get_product_by_code c w) = Raise (HTTPException 500 internal_error_detail)).
  { intros c. now rewrite (lookup_fault c w _ Hf). }
  assert (Hlisting : forall L O : Z,
    fst (get_products L O w) = Raise (HTTPException 500 internal_error_detail)).
  { intros L O. now rewrite (listing_fault L O w _ Hf). }
  split; [|split; [|split]].
  - intros c. split; [apply Hlookup|].
    intros Hr. apply validates_range in Hr.
    rewrite GET_product_valid by exact Hr.
    apply serve_http_exception, Hlookup.
  - intros L O limit_ offset_. split; [apply Hlisting|].
    unfold GET_products. apply serve_http_exception, Hlisting.
  - reflexivity.
  - discriminate.
Qed.

Lemma unexpected_exception_is_a_500_witness :
  (forall c : Z,
     fst (get_product_by_code c shop_crashing)
     = Raise (HTTPException 500 internal_error_detail)
     /\ ((1 <= c <= 99999999999999999999999999)%Z ->
         fst (GET_product c shop_crashing)
         = JSONResponse 500 (JObj [("detail", internal_error_detail)])))
  /\ (forall (L O : Z) (limit_ offset_ : option Z),
        fst (get_products L O shop_crashing)
        = Raise (HTTPException 500 internal_error_detail)
        /\ fst (GET_products limit_ offset_ shop_crashing)
           = JSONResponse 500 (JObj [("detail", internal_error_detail)]))
  /\ get_field "error" internal_error_detail = Some (JStr "Internal Server Error")
  /\ JObj [("detail", internal_error_detail)] <> fallback_body.
Proof.
  apply (unexpected_exception_is_a_500 "MemoryError" "out of memory" shop_crashing).
  reflexivity.
Defined.


(** ** What an answer of the lookup tells the client *)

(** X3. When [get_product_by_code] returns a product, the table has
    exactly one row with the code that was asked for, and the product is
    the mapping of that row; its [code] is the one asked for. *)
Theorem lookup_returns_the_only_match (c : Z) (w : World) (p : ProductSchema) :
  fst (get_product_by_code c w) = Return p ->
  exists row : Product,
    filter (fun r => code r = c) (table w) = [row]
    /\ row ∈ table w
    /\ p = from_orm row
    /\ s_code p = c.
Proof.
  intros Hret.
  destruct (fault w) as [e|] eqn:Hf.
  { rewrite (lookup_fault c w e Hf) in Hret.
    destruct e; simpl in Hret; discriminate. }
  destruct (filter (fun r => code r = c) (table w)) as [|row [|row' rest]] eqn:Hrows.
  - rewrite (lookup_no_row c w Hf Hrows) in Hret. discriminate.
  - rewrite (lookup_one_row c w row Hf Hrows) in Hret.
    injection Hret as <-.
    assert (Hin : row ∈ filter (fun r => code r = c) (table w))
      by (rewrite Hrows; apply list_elem_of_here).
    apply list_elem_of_filter in Hin. destruct Hin as [Hcode Hin].
    exists row. repeat split; trivial.
  - rewrite (lookup_many_rows c w Hf) in Hret by (rewrite Hrows; simpl; lia).
    discriminate.
Qed.

Lemma lookup_returns_the_only_match_witness :
  exists row : Product,
    filter (fun r => code r = 45123456%Z) (table shop) = [row]
    /\ row ∈ table shop
    /\ from_orm gum = from_orm row
    /\ s_code (from_orm gum) = 45123456%Z.
Proof.
  apply (lookup_returns_the_only_match 45123456 shop (from_orm gum)).
  reflexivity.
Defined.

(** X4. Unless the session itself raises an [HTTPException], a 404 from
    [get_product_by_code] means that no row of the table has the code
    that was asked for, and its detail names that code. *)
Theorem lookup_404_means_absent (c : Z) (w : World) (d : json) :
  (forall st d', fault w <> Some (HTTPException st d')) ->
  fst (get_product_by_code c w) = Raise (HTTPException 404 d) ->
  d = not_found_detail c
  /\ forall row : Product, row ∈ table w -> code row <> c.
Proof.
  intros Hnohttp Hraise.
  destruct (fault w) as [e|] eqn:Hf.
  { rewrite (lookup_fault c w e Hf) in Hraise.
    destruct e as [st d'|cls text|cls text]; simpl in Hraise;
      try discriminate.
    now destruct (Hnohttp st d'). }
  destruct (filter (fun r => code r = c) (table w)) as [|row [|row' rest]] eqn:Hrows.
  - rewrite (lookup_no_row c w Hf Hrows) in Hraise.
    injection Hraise as <-. split; [reflexivity|].
    intros row Hin Hcode.
    apply (filter_nil_not_elem_of _ _ row Hrows); assumption.
  - rewrite (lookup_one_row c w row Hf Hrows) in Hraise. discriminate.
  - rewrite (lookup_many_rows c w Hf) in Hraise by (rewrite Hrows; simpl; lia).
    discriminate.
Qed.

Lemma lookup_404_means_absent_witness :
  not_found_detail 7 = not_found_detail 7
  /\ forall row : Product, row ∈ table shop -> code row <> 7%Z.
Proof.
  apply (lookup_404_means_absent 7 shop (not_found_detail 7)).
  - intros st d'. simpl. discriminate.
  - reflexivity.
Defined.

(** ** Nothing but an HTTPException leaves the lookup *)


(** ** What the handlers log *)




(** X7. With a session that does not fail, a lookup logs exactly two
    records: its start, then a WARNING when no row has the code, an INFO
    with the identifier and the name of the row when one has it, and an
    ERROR with the [MultipleResultsFound] exception when several have. *)
Theorem lookup_log (c : Z) (w : World) :
  fault w = None ->
  records (snd (get_product_by_code c w))
  = (records w
     ++ [lookup_started c;
         match filter (fun p => code p = c) (table w) with
         | [] =>
             {| levelname := WARNING;
                message := [Lit "商品未登録: code="; FInt c];
                exc_info := false |}
         | [row] =>
             {| levelname := INFO;
                message := [Lit "商品検索成功: prd_id="; FInt (prd_id row);
                            Lit ", name="; FStr (name row)];
                exc_info := false |}
         | _ :: _ :: _ =>
             {| levelname := ERROR;
                message :=
                  [Lit "データベースエラー（商品検索）: ";
                   FExc (SQLAlchemyError "MultipleResultsFound"
                           "Multiple rows were found when one or none was required")];
                exc_info := true |}
         end])%list.
Proof.
  intros Hf. unfold get_product_by_code, try_except.
  rewrite lookup_try_rows by exact Hf.
  destruct (filter (fun p => code p = c) (table w)) as [|r1 [|r2 rest]];
    simpl; rewrite <- ?app_assoc; reflexivity.
Qed.

Lemma lookup_log_witness :
  records (snd (get_product_by_code 45123456 shop))
  = [lookup_started 45123456;
     {| levelname := INFO;
        message := [Lit "商品検索成功: prd_id="; FInt 3; Lit ", name="; FStr "gum"];
        exc_info := false |}].
Proof.
  apply (lookup_log 45123456 shop). reflexivity.
Defined.

(** X8. Whenever [get_products] returns, whatever the limit and the
    offset, it has logged two INFO records, and the count in the second
    is the number of products it returns. *)
Theorem listing_logs_the_count (L O : Z) (w : World) (products : list ProductSchema) :
  fst (get_products L O w) = Return products ->
  records (snd (get_products L O w))
  = (records w
     ++ [listing_started L O;
         {| levelname := INFO;
            message := [Lit "商品一覧取得成功: 件数=";
                        FInt (Z.of_nat (length products))];
            exc_info := false |}])%list.
Proof.
  unfold_handler. simpl.
  destruct (fault w) as [[st d|cls text|cls text]|];
    [simpl; discriminate | simpl; discriminate | simpl; discriminate |].
  destruct (run_select _ _ _) as [rows|[st d|cls text|cls text]];
    simpl; try discriminate.
  intros Hret. injection Hret as <-.
  rewrite length_map, <- app_assoc. reflexivity.
Qed.

Lemma listing_logs_the_count_witness :
  records (snd (get_products 2 1 shop))
  = [listing_started 2 1;
     {| levelname := INFO;
        message := [Lit "商品一覧取得成功: 件数="; FInt 2];
        exc_info := false |}].
Proof.
  apply (listing_logs_the_count 2 1 shop [from_orm tea; from_orm gum]).
  vm_compute. reflexivity.
Defined.

(** ** The gate in front of the lookup *)

(** X9. [GET /products/{code}] leaves the session alone exactly for the
    codes outside [1, 99999999999999999999999999], which it answers with
    422; for every code inside, the lookup statement for that code is the
    one statement that reaches the session. *)
Theorem path_bounds_gate_the_session (c : Z) (w : World) :
  (statements (snd (GET_product c w)) = statements w
   <-> (c <= 0 \/ 99999999999999999999999999 < c)%Z)
  /\ ((c <= 0 \/ 99999999999999999999999999 < c)%Z ->
      GET_product c w = (request_validation_response ["path"; "code"], w)
      /\ status (fst (GET_product c w)) = 422%Z)
  /\ ((1 <= c <= 99999999999999999999999999)%Z ->
      statements (snd (GET_product c w))
      = (statements w ++ [StmtSelect (where_code_eq c select_Product)])%list).
Proof.
  assert (Hin : (1 <= c <= 99999999999999999999999999)%Z ->
    statements (snd (GET_product c w))
    = (statements w ++ [StmtSelect (where_code_eq c select_Product)])%list).
  { intros Hr. apply validates_range in Hr.
    rewrite GET_product_valid by exact Hr.
    rewrite serve_statements. apply lookup_statements. }
  split; [|split].
  - split.
    + intros Hsame.
      destruct (Z_le_dec c 0) as [|Hpos]; [now left|].
      destruct (Z_lt_dec 99999999999999999999999999 c) as [|Hle]; [now right|].
      exfalso. rewrite Hin in Hsame by lia.
      apply (f_equal length) in Hsame. rewrite length_app in Hsame.
      simpl in Hsame. lia.
    + intros Hout. now rewrite (GET_product_rejected c w Hout).
  - intros Hout. rewrite (GET_product_rejected c w Hout). split; reflexivity.
  - exact Hin.
Qed.

Lemma path_bounds_gate_the_session_witness :
  (statements (snd (GET_product 0 shop)) = statements shop
   <-> (0 <= 0 \/ 99999999999999999999999999 < 0)%Z)
  /\ ((0 <= 0 \/ 99999999999999999999999999 < 0)%Z ->
      GET_product 0 shop = (request_validation_response ["path"; "code"], shop)
      /\ status (fst (GET_product 0 shop)) = 422%Z)
  /\ ((1 <= 0 <= 99999999999999999999999999)%Z ->
      statements (snd (GET_product 0 shop))
      = (statements shop ++ [StmtSelect (where_code_eq 0 select_Product)])%list).
Proof.
  apply (path_bounds_gate_the_session 0 shop).
Defined.

(** ** Pages of the listing *)

(** X11. An empty page is an answer, not an error: with a session that
    does not fail, and a limit [L >= 0] and an offset [O >= 0], a limit
    of zero or an offset at or past the end of the table gives 200 with
    an empty array. *)
Theorem listing_empty_page (L O : Z) (w : World) :
  fault w = None -> (0 <= L)%Z -> (0 <= O)%Z ->
  (L = 0%Z \/ (Z.of_nat (length (table w)) <= O)%Z) ->
  fst (get_products L O w) = Return []
  /\ fst (GET_products (Some L) (Some O) w) = JSONResponse 200 (JArr []).
Proof.
  intros Hf HL HO Hedge.
  assert (Hpage : page L O (apply_order_by true (table w)) = []).
  { unfold page. destruct Hedge as [-> | Hpast]; [reflexivity|].
    rewrite drop_ge; [apply take_nil|].
    rewrite (Permutation_length (order_by_permutation (table w))). lia. }
  assert (Hret : fst (get_products L O w) = Return []).
  { rewrite listing_rows by assumption. now rewrite Hpage. }
  split; [exact Hret|].
  unfold GET_products. simpl default.
  now rewrite (serve_return _ _ _ _ _ Hret).
Qed.

Lemma listing_empty_page_witness :
  fst (get_products 5 3 shop) = Return []
  /\ fst (GET_products (Some 5%Z) (Some 3%Z) shop) = JSONResponse 200 (JArr []).
Proof.
  apply (listing_empty_page 5 3 shop); [reflexivity | lia | lia | right; simpl; lia].
Defined.

(** X12. With a session that does not fail, a limit that is at least the
    size of the table and an offset of zero list the whole table: every
    row once, in ascending [prd_id] order.  With no parameters this holds
    for every table of at most a hundred rows. *)
Theorem listing_whole_table (L : Z) (w : World) :
  fault w = None ->
  (Z.of_nat (length (table w)) <= L)%Z ->
  exists rows : list Product,
    rows ≡ₚ table w
    /\ StronglySorted prd_id_le rows
    /\ fst (get_products L 0 w) = Return (map from_orm rows)
    /\ ((L = 100)%Z ->
        fst (GET_products None None w)
        = JSONResponse 200 (ProductSchema_list_json (map from_orm rows))).
Proof.
  intros Hf Hsize. exists (apply_order_by true (table w)).
  assert (Hret : fst (get_products L 0 w)
                 = Return (map from_orm (apply_order_by true (table w)))).
  { rewrite listing_rows by (trivial; lia). unfold page.
    rewrite Z2Nat.inj_0, drop_0, take_ge; [reflexivity|].
    rewrite (Permutation_length (order_by_permutation (table w))). lia. }
  split; [apply order_by_permutation|].
  split; [apply order_by_sorted|].
  split; [exact Hret|].
  intros ->. unfold GET_products. simpl default.
  now rewrite (serve_return _ _ _ _ _ Hret).
Qed.

Lemma listing_whole_table_witness :
  exists rows : list Product,
    rows ≡ₚ table shop
    /\ StronglySorted prd_id_le rows
    /\ fst (get_products 100 0 shop) = Return (map from_orm rows)
    /\ ((100 = 100)%Z ->
        fst (GET_products None None shop)
        = JSONResponse 200 (ProductSchema_list_json (map from_orm rows))).
Proof.
  apply (listing_whole_table 100 shop); [reflexivity | simpl; lia].
Defined.

(** ** One request after another *)

Lemma lookup_keeps_store (c : Z) (w : World) :
  same_store (snd (get_product_by_code c w)) w.
Proof.
  unfold same_store. unfold_handler. simpl.
  destruct (fault w) as [[st d|cls text|cls text]|] eqn:Hf;
    [simpl; rewrite ?Hf; auto ..|].
  rewrite run_select_lookup.
  destruct (filter (fun p => code p = c) (table w)) as [|r1 [|r2 rest]];
    simpl; rewrite ?Hf; auto.
Qed.

Lemma listing_keeps_store (L O : Z) (w : World) :
  same_store (snd (get_products L O w)) w.
Proof.
  unfold same_store. unfold_handler. simpl.
  destruct (fault w) as [[st d|cls text|cls text]|] eqn:Hf;
    [simpl; rewrite ?Hf; auto ..|].
  destruct (run_select _ _ _) as [rows|[st d|cls text|cls text]];
    simpl; rewrite ?Hf; auto.
Qed.

Lemma lookup_respects_store (c : Z) (w1 w2 : World) :
  same_store w1 w2 ->
  fst (get_product_by_code c w1) = fst (get_product_by_code c w2).
Proof.
  intros (Ht & Hd & Hf).
  destruct (fault w2) as [e|] eqn:Hf2.
  - rewrite (lookup_fault c w1 e), (lookup_fault c w2 e) by congruence.
    destruct e; reflexivity.
  - unfold get_product_by_code, try_except.
    rewrite !lookup_try_rows by congruence. rewrite Ht.
    destruct (filter (fun p => code p = c) (table w2)) as [|r1 [|r2 rest]];
      reflexivity.
Qed.

Lemma listing_respects_store (L O : Z) (w1 w2 : World) :
  same_store w1 w2 ->
  fst (get_products L O w1) = fst (get_products L O w2).
Proof.
  intros (Ht & Hd & Hf).
  unfold_handler. simpl. rewrite Ht, Hd, Hf.
  destruct (fault w2) as [[st d|cls text|cls text]|]; try reflexivity.
  destruct (run_select _ _ _) as [rows|[st d|cls text|cls text]]; reflexivity.
Qed.

(** X13. The outcome of a request does not depend on the requests served
    before it: after any lookup or listing, a lookup and a listing return
    or raise what they would have without it. *)
Theorem reads_are_repeatable (w : World) (c c' L O L' O' : Z) :
  fst (get_product_by_code c (snd (get_product_by_code c' w)))
  = fst (get_product_by_code c w)
  /\ fst (get_product_by_code c (snd (get_products L' O' w)))
     = fst (get_product_by_code c w)
  /\ fst (get_products L O (snd (get_product_by_code c' w)))
     = fst (get_products L O w)
  /\ fst (get_products L O (snd (get_products L' O' w)))
     = fst (get_products L O w).
Proof.
  repeat split.
  - apply lookup_respects_store, lookup_keeps_store.
  - apply lookup_respects_store, listing_keeps_store.
  - apply listing_respects_store, lookup_keeps_store.
  - apply listing_respects_store, listing_keeps_store.
Qed.

(** X14. Consecutive pages fit together: with a session that does not
    fail, a page of [L1] rows from offset [O] followed by the page of
    [L2] rows asked for next, from offset [O + L1], is the page of
    [L1 + L2] rows from offset [O]; no row is skipped or repeated. *)
Theorem listing_pages_concatenate (L1 L2 O : Z) (w : World) :
  fault w = None -> (0 <= L1)%Z -> (0 <= L2)%Z -> (0 <= O)%Z ->
  exists p1 p2 : list ProductSchema,
    fst (get_products L1 O w) = Return p1
    /\ fst (get_products L2 (O + L1) (snd (get_products L1 O w))) = Return p2
    /\ fst (get_products (L1 + L2) O w) = Return (p1 ++ p2)%list.
Proof.
  intros Hf HL1 HL2 HO.
  exists (map from_orm (page L1 O (apply_order_by true (table w)))),
         (map from_orm (page L2 (O + L1) (apply_order_by true (table w)))).
  split; [now apply listing_rows|]. split.
  - rewrite (listing_respects_store _ _ _ w (listing_keeps_store L1 O w)).
    apply listing_rows; trivial; lia.
  - rewrite listing_rows by (trivial; lia).
    rewrite <- map_app. do 2 f_equal. unfold page.
    rewrite !Z2Nat.inj_add by lia.
    rewrite <- drop_drop. apply eq_sym, take_take_drop.
Qed.

Lemma listing_pages_concatenate_witness :
  exists p1 p2 : list ProductSchema,
    fst (get_products 1 0 shop) = Return p1
    /\ fst (get_products 2 (0 + 1) (snd (get_products 1 0 shop))) = Return p2
    /\ fst (get_products (1 + 2) 0 shop) = Return (p1 ++ p2)%list.
Proof.
  apply (listing_pages_concatenate 1 2 0 shop); [reflexivity | lia | lia | lia].
Defined.

(** ** The order in which the rows are stored *)

Lemma order_by_of_permutation (t1 t2 : list Product) :
  prd_id_is_key t1 -> t1 ≡ₚ t2 ->
  apply_order_by true t1 = apply_order_by true t2.
Proof.
  intros Hkey Hperm.
  apply (StronglySorted_unique_strong prd_id_le).
  - intros x1 x2 Hx1 Hx2 H12 H21.
    rewrite order_by_permutation in Hx1.
    rewrite order_by_permutation, <- Hperm in Hx2.
    apply Hkey; trivial. unfold prd_id_le in *. lia.
  - apply order_by_sorted.
  - apply order_by_sorted.
  - now rewrite !order_by_permutation.
Qed.

Lemma run_select_listing (d : Dialect) (L O : Z) (t : list Product) :
  run_select d (order_by_Product_prd_id (offset O (limit L select_Product))) t
  = match apply_offset d (Some O) (apply_order_by true t) with
    | Return rows => apply_limit d (Some L) rows
    | Raise e => Raise e
    end.
Proof. reflexivity. Qed.

(** X15. The answers do not depend on the order in which the table holds
    its rows.  For two worlds whose tables hold the same rows, behind the
    same engine and failing the same way, a lookup has the same outcome
    in both; and when [prd_id] tells the rows apart, so has a listing,
    for every limit and offset. *)
Theorem answers_ignore_the_storage_order (w1 w2 : World) :
  table w1 ≡ₚ table w2 -> dialect w1 = dialect w2 -> fault w1 = fault w2 ->
  (forall c : Z, fst (get_product_by_code c w1) = fst (get_product_by_code c w2))
  /\ (prd_id_is_key (table w1) ->
      forall L O : Z, fst (get_products L O w1) = fst (get_products L O w2)).
Proof.
  intros Hperm Hd Hf. split.
  - intros c.
    destruct (fault w2) as [e|] eqn:Hf2.
    { rewrite (lookup_fault c w1 e), (lookup_fault c w2 e) by congruence.
      destruct e; reflexivity. }
    assert (Hrows : filter (fun p => code p = c) (table w1)
                    ≡ₚ filter (fun p => code p = c) (table w2))
      by now rewrite Hperm.
    pose proof (Permutation_length Hrows) as Hlen.
    destruct (filter (fun p => code p = c) (table w1)) as [|a [|b r]] eqn:H1;
      destruct (filter (fun p => code p = c) (table w2)) as [|a' [|b' r']] eqn:H2;
      simpl in Hlen; try lia.
    + now rewrite (lookup_no_row c w1), (lookup_no_row c w2) by congruence.
    + apply Permutation_singleton_inj in Hrows. subst a'.
      now rewrite (lookup_one_row c w1 a), (lookup_one_row c w2 a) by congruence.
    + rewrite (lookup_many_rows c w1), (lookup_many_rows c w2);
        try congruence; try (rewrite ?H1, ?H2; simpl; lia).
  - intros Hkey L O.
    pose proof (order_by_of_permutation _ _ Hkey Hperm) as Hsort.
    unfold_handler. simpl. rewrite Hd, Hf.
    destruct (fault w2) as [[st d|cls text|cls text]|]; try reflexivity.
    rewrite !run_select_listing, Hsort.
    destruct (apply_offset _ _ _) as [rows|e]; [|destruct e; reflexivity].
    destruct (apply_limit _ _ _) as [rows'|e]; [reflexivity|destruct e; reflexivity].
Qed.

Lemma answers_ignore_the_storage_order_witness :
  (forall c : Z,
     fst (get_product_by_code c shop) = fst (get_product_by_code c shop_reshelved))
  /\ (prd_id_is_key (table shop) ->
      forall L O : Z,
        fst (get_products L O shop) = fst (get_products L O shop_reshelved)).
Proof.
  apply (answers_ignore_the_storage_order shop shop_reshelved);
    [|reflexivity|reflexivity].
  symmetry. apply (Permutation_cons_append [gum; cola] tea).
Defined.

(** When two rows share an identifier the listing does depend on how
    they are stored. *)
Example listing_needs_the_key :
  let twin := {| prd_id := 1; code := 77; name := "twin"; price := 1 |} in
  table (world_of [cola; twin] None) ≡ₚ table (world_of [twin; cola] None)
  /\ fst (get_products 1 0 (world_of [cola; twin] None))
     <> fst (get_products 1 0 (world_of [twin; cola] None)).
Proof.
  simpl. split; [apply perm_swap|]. vm_compute. discriminate.
Qed.

(** ** More on what the answers tell *)

(** X16. With a session that does not fail, a 500 from the lookup has the
    "Database Error" detail and means that the code is not unique: at
    least two rows of the table have it. *)
Theorem lookup_500_means_duplicates (c : Z) (w : World) (d : json) :
  fault w = None ->
  fst (get_product_by_code c w) = Raise (HTTPException 500 d) ->
  d = database_error_detail
  /\ (2 <= length (filter (fun r => code r = c) (table w)))%nat.
Proof.
  intros Hf Hraise.
  destruct (filter (fun r => code r = c) (table w)) as [|row [|row' rest]] eqn:Hrows.
  - rewrite (lookup_no_row c w Hf Hrows) in Hraise. discriminate.
  - rewrite (lookup_one_row c w row Hf Hrows) in Hraise. discriminate.
  - rewrite (lookup_many_rows c w Hf) in Hraise by (rewrite Hrows; simpl; lia).
    injection Hraise as <-. split; [reflexivity|simpl; lia].
Qed.

Lemma lookup_500_means_duplicates_witness :
  database_error_detail = database_error_detail
  /\ (2 <= length (filter (fun r => code r = 45123456%Z) (table shop_with_duplicate)))%nat.
Proof.
  apply (lookup_500_means_duplicates 45123456 shop_with_duplicate database_error_detail);
    reflexivity.
Defined.

(** X17. With a session that does not fail, the number of products a
    listing returns for a limit [L >= 0] and an offset [O >= 0] over a
    table of [n] rows is [min L (max 0 (n - O))]. *)
Theorem listing_page_size (L O : Z) (w : World) :
  fault w = None -> (0 <= L)%Z -> (0 <= O)%Z ->
  exists products : list ProductSchema,
    fst (get_products L O w) = Return products
    /\ Z.of_nat (length products)
       = Z.min L (Z.max 0 (Z.of_nat (length (table w)) - O)).
Proof.
  intros Hf HL HO. eexists. split; [now apply listing_rows|].
  rewrite length_map. unfold page. rewrite length_take, length_drop.
  rewrite (Permutation_length (order_by_permutation (table w))). lia.
Qed.

Lemma listing_page_size_witness :
  exists products : list ProductSchema,
    fst (get_products 5 2 shop) = Return products
    /\ Z.of_nat (length products)
       = Z.min 5 (Z.max 0 (Z.of_nat (length (table shop)) - 2)).
Proof.
  apply (listing_page_size 5 2 shop); [reflexivity | lia | lia].
Defined.

Lemma sorted_take (n : nat) (rows : list Product) :
  StronglySorted prd_id_le rows -> StronglySorted prd_id_le (take n rows).
Proof.
  intros Hs. rewrite <- (take_drop n rows) in Hs.
  now apply StronglySorted_app_1_l in Hs.
Qed.

Lemma sorted_drop (n : nat) (rows : list Product) :
  StronglySorted prd_id_le rows -> StronglySorted prd_id_le (drop n rows).
Proof.
  intros Hs. rewrite <- (take_drop n rows) in Hs.
  now apply StronglySorted_app_1_r in Hs.
Qed.

Lemma apply_offset_rows (d : Dialect) (o : option Z) (rows rows' : list Product) :
  apply_offset d o rows = Return rows' ->
  (StronglySorted prd_id_le rows -> StronglySorted prd_id_le rows')
  /\ rows' `sublist_of` rows.
Proof.
  unfold apply_offset. destruct o as [n|]; [destruct (0 <=? n)%Z; [|destruct d]|];
    intros Heq; try discriminate; injection Heq as <-;
    (split; [auto using sorted_drop | first [apply sublist_drop | reflexivity]]).
Qed.

Lemma apply_limit_rows (d : Dialect) (l : option Z) (rows rows' : list Product) :
  apply_limit d l rows = Return rows' ->
  (StronglySorted prd_id_le rows -> StronglySorted prd_id_le rows')
  /\ rows' `sublist_of` rows.
Proof.
  unfold apply_limit. destruct l as [n|]; [destruct (0 <=? n)%Z; [|destruct d]|];
    intros Heq; try discriminate; injection Heq as <-;
    (split; [auto using sorted_take | first [apply sublist_take | reflexivity]]).
Qed.

Lemma run_select_listing_rows (d : Dialect) (L O : Z) (t rows : list Product) :
  run_select d (order_by_Product_prd_id (offset O (limit L select_Product))) t
  = Return rows ->
  StronglySorted prd_id_le rows /\ rows `sublist_of` apply_order_by true t.
Proof.
  rewrite run_select_listing.
  destruct (apply_offset d (Some O) (apply_order_by true t)) as [skipped|e] eqn:Hskip;
    [|discriminate].
  intros Htake.
  destruct (apply_offset_rows _ _ _ _ Hskip) as [Hs1 Hsub1].
  destruct (apply_limit_rows _ _ _ _ Htake) as [Hs2 Hsub2].
  split.
  - apply Hs2, Hs1, order_by_sorted.
  - now transitivity skipped.
Qed.

(** X18. Whatever the limit and the offset, negative ones included, and
    whatever the engine makes of them, a listing that returns gives the
    mappings of rows of the table, each row at most as often as the table
    has it, in ascending [prd_id] order. *)
Theorem listing_returns_sorted_rows_of_the_table
  (L O : Z) (w : World) (products : list ProductSchema) :
  fst (get_products L O w) = Return products ->
  exists rows : list Product,
    products = map from_orm rows
    /\ StronglySorted prd_id_le rows
    /\ (exists listing, listing ≡ₚ table w /\ rows `sublist_of` listing)
    /\ (forall r : Product, r ∈ rows -> r ∈ table w).
Proof.
  unfold_handler. simpl.
  destruct (fault w) as [[st d|cls text|cls text]|];
    [simpl; discriminate | simpl; discriminate | simpl; discriminate |].
  destruct (run_select _ _ _) as [rows|[st d|cls text|cls text]] eqn:Hrun;
    simpl; try discriminate.
  intros Hret. injection Hret as <-.
  apply run_select_listing_rows in Hrun. destruct Hrun as [Hsorted Hsub].
  exists rows. split; [reflexivity|]. split; [exact Hsorted|]. split.
  - exists (apply_order_by true (table w)).
    split; [apply order_by_permutation|exact Hsub].
  - intros r Hr. rewrite <- (order_by_permutation (table w)).
    now apply (elem_of_sublist rows).
Qed.

Lemma listing_returns_sorted_rows_of_the_table_witness :
  exists rows : list Product,
    [from_orm cola; from_orm tea; from_orm gum] = map from_orm rows
    /\ StronglySorted prd_id_le rows
    /\ (exists listing,
          listing ≡ₚ table shop_on_sqlite /\ rows `sublist_of` listing)
    /\ (forall r : Product, r ∈ rows -> r ∈ table shop_on_sqlite).
Proof.
  apply (listing_returns_sorted_rows_of_the_table (-1) (-1) shop_on_sqlite).
  vm_compute. reflexivity.
Defined.
